(** * Shallow embedding of the breitbandmessung speed-test publisher

    Sources: [src/main.rs] (the running binary: scheduler, publisher and
    connection-pump tasks, [perform_all_tests] and the probe runners),
    [src/tests.rs] (the same aggregator), [src/models.rs]
    ([SpeedTestResult], [MqttMessage] and their conversion) and
    [src/mqtt.rs] ([publish_discovery_message]).

    Rust's [f64] is Rocq's primitive binary64 [float]; [Result] is
    [result]; a tokio task's [JoinHandle] outcome is a [result] over
    [JoinError]. *)

From Stdlib Require Import List String Bool Arith Lia ZArith Floats Uint63.
From Stdlib Require Import Streams Ascii.
Import ListNotations.
Open Scope string_scope.
Open Scope list_scope.
Set Warnings "-register-all".


(** ** Rust's [Result] and the [?] operator *)

Inductive result (A E : Type) : Type :=
| Ok (a : A)
| Err (e : E).
Arguments Ok {A E} a.
Arguments Err {A E} e.

Definition map_err {A E F : Type} (f : E -> F) (r : result A E) : result A F :=
  match r with
  | Ok a => Ok a
  | Err e => Err (f e)
  end.

(** [let x = r?; k x] *)
Definition bind {A B E : Type} (r : result A E) (k : A -> result B E) : result B E :=
  match r with
  | Ok a => k a
  | Err e => Err e
  end.

Notation "x <- r ;; k" := (bind r (fun x => k))
  (at level 61, r at next level, right associativity).

(** ** Errors (main.rs) *)

(** The measurement engine's error (speedtest_rs::error::SpeedTestError),
    opaque to this program: only carried along. *)
Record SpeedTestError := mkSpeedTestError { ste_cause : string }.

(** tokio's [JoinError]: the task was cancelled or panicked. *)
Inductive JoinError := Cancelled | Panicked.

Inductive ServiceError :=
| ConfigError (s : string)
| ServerListError (s : string)
| LatencyError (s : string)
| DownloadTestError (s : string)
| UploadTestError (s : string)
| TaskJoinError
| SpeedTest (e : SpeedTestError).

(** [impl From<JoinError> for ServiceError] *)
Definition service_error_of_join (_ : JoinError) : ServiceError := TaskJoinError.

(** [impl From<SpeedTestError> for ServiceError] *)
Definition service_error_of_speedtest (e : SpeedTestError) : ServiceError := SpeedTest e.

(** [engine_call()?] inside a closure returning [Result<_, ServiceError>]. *)
Definition lift {A : Type} (r : result A SpeedTestError) : result A ServiceError :=
  map_err service_error_of_speedtest r.

(** ** The measurement engine boundary (speedtest_rs) *)

Record SpeedTestConfig := mkSpeedTestConfig { client_ip : string }.
Record SpeedTestServer := mkSpeedTestServer { server_id : nat; server_host : string }.
Record ServerListConfig := mkServerListConfig { servers : list SpeedTestServer }.

(** [std::time::Duration]: whole seconds and nanoseconds. *)
Record Duration := mkDuration { secs : int; nanos : int }.

(** [Duration::as_secs_f64]:
    [(self.secs as f64) + (self.nanos as f64) / (NANOS_PER_SEC as f64)]. *)
Definition as_secs_f64 (d : Duration) : float :=
  (PrimFloat.of_uint63 (secs d) + PrimFloat.of_uint63 (nanos d) / 1000000000)%float.

Record LatencyTestResult := mkLatencyTestResult {
  server : SpeedTestServer;
  latency : Duration }.

(** A transfer measurement; [bps_f64] is the bits-per-second value the
    engine exposes. *)
Record SpeedMeasurement := mkSpeedMeasurement { bps_f64 : float }.

(** One run of the engine: what each of its calls returns. *)
Record Engine := mkEngine {
  get_configuration : result SpeedTestConfig SpeedTestError;
  get_server_list_with_config : SpeedTestConfig -> result ServerListConfig SpeedTestError;
  get_best_server_based_on_latency :
    list SpeedTestServer -> result LatencyTestResult SpeedTestError;
  test_download_with_progress_and_config :
    SpeedTestServer -> SpeedTestConfig -> result SpeedMeasurement SpeedTestError;
  test_upload_with_progress_and_config :
    SpeedTestServer -> SpeedTestConfig -> result SpeedMeasurement SpeedTestError }.

(** [task::spawn_blocking(closure).await??]: a join failure of the blocking
    task becomes [TaskJoinError] (via [From<JoinError>]); otherwise the
    closure's own result. *)
Definition await_blocking {A : Type} (j : option JoinError) (r : result A ServiceError)
  : result A ServiceError :=
  match j with
  | Some je => Err (service_error_of_join je)
  | None => r
  end.

(** ** Probe runners (main.rs) *)

Definition perform_download_test (eng : Engine) (j : option JoinError)
  : result float ServiceError :=
  result <- await_blocking j
    (config <- lift (get_configuration eng) ;;
     srvs <- lift (get_server_list_with_config eng config) ;;
     best_server <- lift (get_best_server_based_on_latency eng (servers srvs)) ;;
     download_measurement <-
       lift (test_download_with_progress_and_config eng (server best_server) config) ;;
     Ok (bps_f64 download_measurement / 1000000)%float) ;;
  Ok result.

Definition perform_upload_test (eng : Engine) (j : option JoinError)
  : result float ServiceError :=
  result <- await_blocking j
    (config <- lift (get_configuration eng) ;;
     srvs <- lift (get_server_list_with_config eng config) ;;
     best_server <- lift (get_best_server_based_on_latency eng (servers srvs)) ;;
     upload_measurement <-
       lift (test_upload_with_progress_and_config eng (server best_server) config) ;;
     Ok (bps_f64 upload_measurement / 1000000)%float) ;;
  Ok result.

Definition perform_ping_test (eng : Engine) (j : option JoinError)
  : result float ServiceError :=
  result <- await_blocking j
    (config <- lift (get_configuration eng) ;;
     srvs <- lift (get_server_list_with_config eng config) ;;
     best_server <- lift (get_best_server_based_on_latency eng (servers srvs)) ;;
     Ok (as_secs_f64 (latency best_server))) ;;
  Ok (result * 1000)%float.

(** ** Cycle aggregator (main.rs and tests.rs, [perform_all_tests]) *)

Record TestResults := mkTestResults {
  download : float;
  upload : float;
  ping : float }.

(** The outcome of awaiting a spawned probe task. *)
Definition JoinResult (A : Type) := result (result A ServiceError) JoinError.

(** [h.map_err(|_| ServiceError::TaskJoinError)??] *)
Definition flatten_join {A : Type} (h : JoinResult A) : result A ServiceError :=
  inner <- map_err (fun _ => TaskJoinError) h ;;
  v <- inner ;;
  Ok v.

(** The three handles are awaited together by [tokio::join!]; their
    outcomes are then examined in the order download, upload, ping. *)
Definition perform_all_tests (dl ul pg : JoinResult float)
  : result TestResults ServiceError :=
  download <- flatten_join dl ;;
  upload <- flatten_join ul ;;
  ping <- flatten_join pg ;;
  Ok (mkTestResults download upload ping).

(** One cycle as the scheduler runs it: each probe spawned as a task
    (outer join outcome [jd], [ju], [jp]) whose body runs its blocking
    engine work (inner join outcome [bd], [bu], [bp]). *)
Definition spawned {A : Type} (outer : option JoinError) (body : result A ServiceError)
  : JoinResult A :=
  match outer with
  | Some je => Err je
  | None => Ok body
  end.

Definition run_cycle (eng : Engine) (jd ju jp bd bu bp : option JoinError)
  : result TestResults ServiceError :=
  perform_all_tests
    (spawned jd (perform_download_test eng bd))
    (spawned ju (perform_upload_test eng bu))
    (spawned jp (perform_ping_test eng bp)).

(** ** Models (models.rs) *)

(** [chrono::DateTime<Utc>] as a count of nanoseconds since the epoch. *)
Definition DateTime := Z.

Record SpeedTestResult := mkSpeedTestResult {
  str_download : float;
  str_upload : float;
  str_ping : float;
  timestamp : DateTime }.

Record MqttMessage := mkMqttMessage {
  name : string;
  state_topic : string;
  unit_of_measurement : string;
  value_template : float }.

(** [impl From<SpeedTestResult> for Vec<MqttMessage>] *)
Definition messages_of_result (result : SpeedTestResult) : list MqttMessage :=
  [ mkMqttMessage "Speedtest Download" "homeassistant/sensor/Speedtest/Download"
      "Mbps" (str_download result);
    mkMqttMessage "Speedtest Upload" "homeassistant/sensor/Speedtest/Upload"
      "Mbps" (str_upload result);
    mkMqttMessage "Speedtest Ping" "homeassistant/sensor/Speedtest/Ping"
      "ms" (str_ping result) ].

(** ** Broker boundary (rumqttc) and log lines *)

Inductive QoS := AtMostOnce | AtLeastOnce | ExactlyOnce.

(** serde_json values, as built by [json!]. *)
Inductive Json :=
| JString (s : string)
| JArray (l : list Json)
| JObject (kvs : list (string * Json)).

(** A publish payload: the JSON document of a discovery message, or the
    text [format!("Download: {:.2} Mbps, Upload: {:.2} Mbps, Ping: {:.2} ms", ..)]
    of a snapshot, kept here as the snapshot it is formatted from. *)
Inductive Payload :=
| PJson (j : Json)
| PSummary (r : TestResults).

Record Publish := mkPublish {
  pub_topic : string;
  pub_qos : QoS;
  pub_retain : bool;
  pub_payload : Payload }.

Inductive Level := Debug | Info | Warn | Error.

Record LogLine := mkLogLine { level : Level; message : string }.

(** rumqttc's [ClientError] (publish) and [ConnectionError] (poll), opaque. *)
Record ClientError := mkClientError { client_cause : string }.
Record ConnectionError := mkConnectionError { connection_cause : string }.

(** What [Client::publish] returns once the request queue's receiver, held
    by the connection's [EventLoop], has been dropped. *)
Definition request_queue_closed : ClientError := mkClientError "request queue closed".

(** ** The running program (main.rs): scheduler, publisher and pump tasks

    The three tasks of [main] interleave; [step] performs one action of one
    task.  The environment supplies what the code cannot decide: the
    outcomes of the probe tasks, of a publish and of a poll, and the
    termination of the publishing task (which drops the channel's
    receiver).  [step] returns [None] when the task cannot take that action
    in the current state (e.g. a [send] awaiting channel capacity). *)

(** Where the [speed_test_task] loop is. *)
Inductive SchedPhase :=
| SRunCycle                    (* about to call perform_all_tests *)
| SSending (r : TestResults)   (* awaiting result_tx.send(results) *)
| SSleeping.                   (* awaiting sleep(check_interval) *)

Record Sys := mkSys {
  sched : SchedPhase;
  chan : list TestResults;        (* buffered in the mpsc channel, oldest first *)
  rx_open : bool;                 (* result_rx not yet dropped *)
  pump_running : bool;            (* mqtt_eventloop_task still in its loop *)
  sent : list TestResults;        (* values accepted by result_tx.send *)
  received : list TestResults;    (* values returned by result_rx.recv *)
  discarded : list TestResults;   (* buffered values dropped with the receiver *)
  published : list Publish;       (* successful mqtt_client.publish calls *)
  cycles : nat;                   (* perform_all_tests calls made *)
  logs : list LogLine }.

(** [mpsc::channel(1)] *)
Definition channel_capacity : nat := 1.

Inductive Label :=
| LCycle (dl ul pg : JoinResult float)   (* perform_all_tests with these task outcomes *)
| LSend                                  (* result_tx.send(results) completes *)
| LSleep                                 (* sleep(check_interval) elapses *)
| LRecv (outcome : result unit ClientError)  (* recv + publish; the client's answer
                                                while the pump runs *)
| LRxClose                               (* the publishing task terminates *)
| LPoll (outcome : result unit ConnectionError). (* eventloop.poll() returns *)

Definition init : Sys :=
  mkSys SRunCycle [] true true [] [] [] [] 0 [].

Definition set_sched (p : SchedPhase) (s : Sys) : Sys :=
  mkSys p (chan s) (rx_open s) (pump_running s) (sent s) (received s)
    (discarded s) (published s) (cycles s) (logs s).

Definition add_log (l : LogLine) (s : Sys) : Sys :=
  mkSys (sched s) (chan s) (rx_open s) (pump_running s) (sent s) (received s)
    (discarded s) (published s) (cycles s) (logs s ++ [l]).

Definition summary_publish (r : TestResults) : Publish :=
  mkPublish "speedtest/results" AtLeastOnce false (PSummary r).

Definition step (s : Sys) (l : Label) : option Sys :=
  match l with
  | LCycle dl ul pg =>
      match sched s with
      | SRunCycle =>
          let s1 := mkSys (sched s) (chan s) (rx_open s) (pump_running s) (sent s)
                      (received s) (discarded s) (published s) (S (cycles s)) (logs s) in
          match perform_all_tests dl ul pg with
          | Ok results => Some (set_sched (SSending results) s1)
          | Err _ => Some (set_sched SSleeping (add_log (mkLogLine Error "Speedtest failed") s1))
          end
      | _ => None
      end
  | LSend =>
      match sched s with
      | SSending r =>
          if rx_open s then
            if Nat.ltb (List.length (chan s)) channel_capacity then
              Some (mkSys SSleeping (chan s ++ [r]) (rx_open s) (pump_running s)
                      (sent s ++ [r]) (received s) (discarded s) (published s)
                      (cycles s) (logs s))
            else None
          else
            Some (set_sched SSleeping
                    (add_log (mkLogLine Warn "Failed to send test results to MQTT") s))
      | _ => None
      end
  | LSleep =>
      match sched s with
      | SSleeping => Some (set_sched SRunCycle s)
      | _ => None
      end
  | LRecv outcome =>
      if rx_open s then
        match chan s with
        | r :: rest =>
            (* once the pump task has ended, the [EventLoop] it owned is
               dropped with the request queue's receiver: publish fails *)
            let outcome := if pump_running s then outcome else Err request_queue_closed in
            let pubs := match outcome with
                        | Ok _ => published s ++ [summary_publish r]
                        | Err _ => published s
                        end in
            let line := match outcome with
                        | Ok _ => mkLogLine Info "Published Speedtest result to MQTT"
                        | Err _ => mkLogLine Error "MQTT publish error"
                        end in
            Some (mkSys (sched s) rest (rx_open s) (pump_running s) (sent s)
                    (received s ++ [r]) (discarded s) pubs (cycles s) (logs s ++ [line]))
        | [] => None
        end
      else None
  | LRxClose =>
      if rx_open s then
        Some (mkSys (sched s) [] false (pump_running s) (sent s) (received s)
                (discarded s ++ chan s) (published s) (cycles s) (logs s))
      else None
  | LPoll outcome =>
      if pump_running s then
        match outcome with
        | Ok _ => Some (add_log (mkLogLine Debug "Received MQTT event") s)
        | Err _ =>
            (* error!(..); break *)
            Some (add_log (mkLogLine Error "MQTT connection error")
                    (mkSys (sched s) (chan s) (rx_open s) false (sent s) (received s)
                       (discarded s) (published s) (cycles s) (logs s)))
        end
      else None
  end.

Fixpoint run (s : Sys) (ls : list Label) : option Sys :=
  match ls with
  | [] => Some s
  | l :: rest =>
      match step s l with
      | Some s' => run s' rest
      | None => None
      end
  end.

Definition reachable (s : Sys) : Prop := exists ls, run init ls = Some s.

(** [main] returns once [tokio::join!] has seen all three tasks finish.
    The scheduler's [loop] has no exit; the publisher's [while let] ends
    with its receiver; the pump's loop ends at its [break]. *)
Definition sched_finished (_ : Sys) : bool := false.
Definition publisher_finished (s : Sys) : bool := negb (rx_open s).
Definition pump_finished (s : Sys) : bool := negb (pump_running s).
Definition main_returned (s : Sys) : bool :=
  sched_finished s && publisher_finished s && pump_finished s.

(** [main] ends with [Ok(())] after the join. *)
Definition main_result : result unit ServiceError := Ok tt.

(** Rust's [Termination] for [Result<(), E>]: 0 on [Ok], 1 on [Err]. *)
Definition exit_code (r : result unit ServiceError) : Z :=
  match r with
  | Ok _ => 0
  | Err _ => 1
  end.

(** ** Discovery publishing (mqtt.rs) *)

(** errors.rs's [ServiceError], with the [MqttClientError] variant that
    mqtt.rs constructs. *)
Module Errors.
Inductive ServiceError :=
| TaskJoinError
| SpeedTest (e : SpeedTestError)
| MqttClientError (e : ClientError).
End Errors.

Inductive Event :=
| EPublish (p : Publish)
| ELog (l : LogLine)
| ESleep (seconds : nat).

(** What successive [client.publish] calls return. *)
Definition PublishOutcomes := Stream (result unit ClientError).

Definition quoted (name : string) : string := ("'" ++ name ++ "'")%string.

Definition digit (n : nat) : string := String (Ascii.ascii_of_nat (48 + n)) EmptyString.

Definition config_topic (name : string) : string :=
  ("homeassistant/sensor/speedtest/" ++ name ++ "/config")%string.

Definition config_message (name unit device_class : string) : Json :=
  JObject [ ("name", JString ("Speedtest " ++ name)%string);
            ("state_topic", JString ("homeassistant/sensor/speedtest/" ++ name)%string);
            ("unit_of_measurement", JString unit);
            ("device_class", JString device_class);
            ("unique_id", JString ("speedtest_" ++ name)%string);
            ("device", JObject [ ("name", JString "Speedtest");
                                 ("identifiers", JArray [JString "speedtest_device"]) ]) ].

Definition discovery_messages : list (string * string * string) :=
  [ ("download", "Mbit/s", "data_rate");
    ("upload", "Mbit/s", "data_rate");
    ("ping", "ms", "duration") ].

(** How the retry loop of one descriptor is left: [break] (or the range
    running out), or [return Err(..)]. *)
Inductive LoopExit := Continue | Return (err : ClientError).

(** [for attempt in attempts { match client.publish(..) { .. } }] for one
    descriptor. *)
Fixpoint retry_publish (name : string) (topic : string) (msg : Json)
  (attempts : list nat) (outs : PublishOutcomes)
  : list Event * LoopExit * PublishOutcomes :=
  match attempts with
  | [] => ([], Continue, outs)
  | attempt :: rest =>
      let ev := EPublish (mkPublish topic AtLeastOnce true (PJson msg)) in
      match hd outs with
      | Ok _ =>
          ([ev; ELog (mkLogLine Info
                        ("Published MQTT discovery message for " ++ quoted name)%string)],
           Continue, tl outs)
      | Err err =>
          if Nat.ltb attempt 3 then
            let '(evs, ex, outs') := retry_publish name topic msg rest (tl outs) in
            (ev :: ELog (mkLogLine Warn ("Retrying MQTT publish for " ++ quoted name
                                          ++ " (attempt " ++ digit attempt ++ "/3)")%string)
                :: ESleep 1 :: evs, ex, outs')
          else
            ([ev; ELog (mkLogLine Error
                          ("Failed to publish MQTT discovery message for " ++ quoted name)%string)],
             Return err, tl outs)
      end
  end.

(** [1..=3] *)
Definition attempt_range : list nat := seq 1 3.

Fixpoint discovery_loop (ds : list (string * string * string)) (outs : PublishOutcomes)
  : list Event * result unit Errors.ServiceError :=
  match ds with
  | [] => ([], Ok tt)
  | (name, unit, device_class) :: rest =>
      let '(evs, ex, outs') :=
        retry_publish name (config_topic name) (config_message name unit device_class)
          attempt_range outs in
      match ex with
      | Return err => (evs, Err (Errors.MqttClientError err))
      | Continue =>
          let '(evs', r) := discovery_loop rest outs' in (evs ++ evs', r)
      end
  end.

Definition publish_discovery_message (outs : PublishOutcomes)
  : list Event * result unit Errors.ServiceError :=
  discovery_loop discovery_messages outs.

(** The publishes an event trace makes to [topic]. *)
Definition publishes_to (topic : string) (evs : list Event) : nat :=
  List.length (filter (fun e => match e with
                                | EPublish p => String.eqb (pub_topic p) topic
                                | _ => false
                                end) evs).

(** ** Time (models.rs, main.rs) *)

(** [Utc::now()]: a computation that reads the wall clock. *)
Definition Clock (A : Type) := DateTime -> A.

Definition utc_now : Clock DateTime := fun now => now.

(** [SpeedTestResult::new] *)
Definition speed_test_result_new (download upload ping : float) : Clock SpeedTestResult :=
  fun now => mkSpeedTestResult download upload ping (utc_now now).

(** A cycle in time: the three probe tasks start together at [start] and
    take [dd], [du], [dp]; [tokio::join!] returns when the slowest ends.
    The result is the completion time and what [perform_all_tests]
    returns. *)
Definition run_cycle_timed (start dd du dp : DateTime) (dl ul pg : JoinResult float)
  : DateTime * result TestResults ServiceError :=
  ((start + Z.max dd (Z.max du dp))%Z, perform_all_tests dl ul pg).

(** ** Configuration (config.rs, main.rs) *)

(** [str::parse] for an unsigned integer type whose largest value is
    [max] (core's [from_str_radix] with radix 10): an empty string, or a
    lone sign, is refused; one leading [+] is skipped; every remaining
    byte must be a decimal digit, and the value is accumulated with
    [checked_mul(10)] and [checked_add(digit)], refusing any overflow.
    There is no whitespace trimming and no [-] for unsigned types. *)
Definition is_digit (c : Ascii.ascii) : bool :=
  Nat.leb 48 (Ascii.nat_of_ascii c) && Nat.leb (Ascii.nat_of_ascii c) 57.

Definition digit_value (c : Ascii.ascii) : Z := Z.of_nat (Ascii.nat_of_ascii c - 48).

Fixpoint parse_digits (max acc : Z) (s : string) : option Z :=
  match s with
  | EmptyString => Some acc
  | String c rest =>
      if is_digit c then
        let acc' := (acc * 10 + digit_value c)%Z in
        if (acc' <=? max)%Z then parse_digits max acc' rest else None
      else None
  end.

Definition parse_unsigned (max : Z) (s : string) : option Z :=
  match s with
  | EmptyString => None
  | String c rest =>
      if (Ascii.eqb c "+"%char || Ascii.eqb c "-"%char) && String.eqb rest "" then None
      else if Ascii.eqb c "+"%char then parse_digits max 0 rest
      else parse_digits max 0 s
  end.

Definition u64_max : Z := (2 ^ 64 - 1)%Z.
Definition u16_max : Z := 65535%Z.

(** [.ok().and_then(|val| val.parse::<T>().ok()).unwrap_or(default)] *)
Definition parse_or (max default : Z) (v : option string) : Z :=
  match v with
  | Some val => match parse_unsigned max val with Some n => n | None => default end
  | None => default
  end.

(** [.unwrap_or(default)] on [env::var] *)
Definition unwrap_or (v : option string) (default : string) : string :=
  match v with Some x => x | None => default end.

(** The process environment as [env::var] sees it: [None] when the
    variable is unset or not valid unicode (both are [Err]). *)
Definition Env := string -> option string.

Module Log.
(** [log::LevelFilter] *)
Inductive LevelFilter := Off | Error | Warn | Info | Debug | Trace.

Definition ascii_lower (c : Ascii.ascii) : Ascii.ascii :=
  let n := Ascii.nat_of_ascii c in
  if Nat.leb 65 n && Nat.leb n 90 then Ascii.ascii_of_nat (n + 32) else c.

Fixpoint lower (s : string) : string :=
  match s with
  | EmptyString => EmptyString
  | String c rest => String (ascii_lower c) (lower rest)
  end.

(** [str::eq_ignore_ascii_case] *)
Definition eq_ignore_ascii_case (a b : string) : bool := String.eqb (lower a) (lower b).

(** [LevelFilter::from_str]: the position of the name in
    [["OFF"; "ERROR"; "WARN"; "INFO"; "DEBUG"; "TRACE"]], compared with
    [eq_ignore_ascii_case]. *)
Definition level_filter_from_str (s : string) : option LevelFilter :=
  if eq_ignore_ascii_case "OFF" s then Some Off
  else if eq_ignore_ascii_case "ERROR" s then Some Error
  else if eq_ignore_ascii_case "WARN" s then Some Warn
  else if eq_ignore_ascii_case "INFO" s then Some Info
  else if eq_ignore_ascii_case "DEBUG" s then Some Debug
  else if eq_ignore_ascii_case "TRACE" s then Some Trace
  else None.

(** The name each level is parsed from. *)
Definition level_name (l : LevelFilter) : string :=
  match l with
  | Off => "OFF" | Error => "ERROR" | Warn => "WARN"
  | Info => "INFO" | Debug => "DEBUG" | Trace => "TRACE"
  end.
End Log.

Record Config := mkConfig {
  check_interval : Z;
  mqtt_id : string;
  mqtt_host : string;
  mqtt_port : Z;
  mqtt_username : option string;
  mqtt_password : option string;
  log_level : Log.LevelFilter }.

(** [Config::from_env] *)
Definition config_from_env (env : Env) : Config :=
  mkConfig
    (parse_or u64_max 60 (env "CHECK_INTERVAL"))
    (unwrap_or (env "MQTT_ID") "speedtest")
    (unwrap_or (env "MQTT_HOST") "localhost")
    (parse_or u16_max 1883 (env "MQTT_PORT"))
    (env "MQTT_USERNAME")
    (env "MQTT_PASSWORD")
    (match Log.level_filter_from_str (unwrap_or (env "LOG_LEVEL") "info") with
     | Some l => l
     | None => Log.Info
     end).

(** The settings [main] (main.rs) reads inline: check interval, client
    id, host and port, in this order. *)
Definition main_settings (env : Env) : Z * string * string * Z :=
  (parse_or u64_max 60 (env "CHECK_INTERVAL"),
   unwrap_or (env "MQTT_ID") "speedtest",
   unwrap_or (env "MQTT_HOST") "localhost",
   parse_or u16_max 1883 (env "MQTT_PORT")).

(** ** Broker client options (mqtt.rs [initialize_mqtt], main.rs) *)

(** The part of rumqttc's [MqttOptions] this program sets; durations in
    seconds. *)
Record MqttOptions := mkMqttOptions {
  client_id : string;
  broker_addr : string;
  broker_port : Z;
  keep_alive : Z;
  clean_session : bool;
  credentials : option (string * string) }.

(** [MqttOptions::new(id, host, port)]: keep-alive 60 s, clean session,
    no credentials. *)
Definition mqtt_options_new (id host : string) (port : Z) : MqttOptions :=
  mkMqttOptions id host port 60 true None.

Definition set_keep_alive (secs : Z) (o : MqttOptions) : MqttOptions :=
  mkMqttOptions (client_id o) (broker_addr o) (broker_port o) secs (clean_session o)
    (credentials o).

Definition set_clean_session (b : bool) (o : MqttOptions) : MqttOptions :=
  mkMqttOptions (client_id o) (broker_addr o) (broker_port o) (keep_alive o) b
    (credentials o).

Definition set_credentials (u p : string) (o : MqttOptions) : MqttOptions :=
  mkMqttOptions (client_id o) (broker_addr o) (broker_port o) (keep_alive o)
    (clean_session o) (Some (u, p)).

(** [initialize_mqtt]: the options handed to [Client::new] with request
    capacity 10. *)
Definition initialize_mqtt (config : Config) : result (MqttOptions * nat) ClientError :=
  let o := set_clean_session true
             (set_keep_alive 5 (mqtt_options_new (mqtt_id config) (mqtt_host config)
                                  (mqtt_port config))) in
  let o := match mqtt_username config, mqtt_password config with
           | Some username, Some password => set_credentials username password o
           | _, _ => o
           end in
  Ok (o, 10).

(** The options [main] (main.rs) builds before [Client::new(mqttoptions, 10)]. *)
Definition main_mqtt_options (env : Env) : MqttOptions :=
  let '(_, mqtt_id, mqtt_host, mqtt_port) := main_settings env in
  set_clean_session true (set_keep_alive 5 (mqtt_options_new mqtt_id mqtt_host mqtt_port)).

(** ** Concrete inputs *)

(** A probe task that was joined and whose probe returned [v]. *)
Definition probe_ok (v : float) : JoinResult float := Ok (Ok v).

(** A probe task whose probe reported an engine error. *)
Definition probe_failed : JoinResult float :=
  Ok (Err (SpeedTest (mkSpeedTestError "upload transfer failed"))).

Definition sample_cycle : Label := LCycle (probe_ok 50) (probe_ok 10) (probe_ok 12).

Definition sample_snapshot : TestResults := mkTestResults 50 10 12.

Definition sample_connection_error : ConnectionError :=
  mkConnectionError "connection refused".

Definition sample_client_error : ClientError := mkClientError "request queue closed".

(** A broker client whose every publish fails. *)
Definition all_publishes_fail : PublishOutcomes := const (Err sample_client_error).

(** A broker client whose every publish succeeds. *)
Definition all_publishes_ok : PublishOutcomes := const (Ok tt).

Definition sample_server : SpeedTestServer := mkSpeedTestServer 1 "speedtest.example.net".

(** An engine whose calls all succeed: best-server latency 10 ms, download
    50,000,000 bit/s, upload 10,000,000 bit/s. *)
Definition sample_engine : Engine :=
  mkEngine (Ok (mkSpeedTestConfig "192.0.2.1"))
    (fun _ => Ok (mkServerListConfig [sample_server]))
    (fun _ => Ok (mkLatencyTestResult sample_server (mkDuration 0 10000000)))
    (fun _ _ => Ok (mkSpeedMeasurement 50000000))
    (fun _ _ => Ok (mkSpeedMeasurement 10000000)).

(** ** The jitter of the spec (Section 4.1), for comparison

    Written after the spec's formula, to compare the program's probes with:
    the mean absolute deviation of the samples from their mean,
    [(1/N) * sum |sample_i - mean|].  No code of the repository computes it. *)
Definition float_sum (l : list float) : float := fold_right PrimFloat.add 0%float l.

Definition of_nat_float (n : nat) : float := PrimFloat.of_uint63 (Uint63.of_Z (Z.of_nat n)).

Definition spec_jitter (samples : list float) : float :=
  let n := of_nat_float (List.length samples) in
  let mean := (float_sum samples / n)%float in
  (float_sum (List.map (fun x => PrimFloat.abs (x - mean)) samples) / n)%float.

(** The probes the program runs: those [perform_all_tests] spawns. *)
Inductive ProbeKind := Download | Upload | Ping.

Definition run_probe (k : ProbeKind) (eng : Engine) : result float ServiceError :=
  match k with
  | Download => perform_download_test eng None
  | Upload => perform_upload_test eng None
  | Ping => perform_ping_test eng None
  end.

(** ** Observations used by the properties *)

(** What every reachable state satisfies: at most one buffered snapshot;
    everything accepted by the channel was received, is buffered, or was
    dropped with the receiver, in that order; a closed channel buffers
    nothing; nothing is dropped while the receiver lives. *)
Definition channel_inv (s : Sys) : Prop :=
  List.length (chan s) <= 1
  /\ sent s = received s ++ chan s ++ discarded s
  /\ (rx_open s = false -> chan s = [])
  /\ (rx_open s = true -> discarded s = []).

Definition discovery_publish_ok (e : Event) : Prop :=
  match e with
  | EPublish p =>
      pub_retain p = true /\ pub_qos p = AtLeastOnce
      /\ exists name unit device_class,
           In (name, unit, device_class) discovery_messages
           /\ pub_topic p = config_topic name
           /\ pub_payload p = PJson (config_message name unit device_class)
  | _ => True
  end.

Definition discovery_names : list string := ["download"; "upload"; "ping"].

Definition discovery_failed_line (name : string) : Event :=
  ELog (mkLogLine Error ("Failed to publish MQTT discovery message for " ++ quoted name)%string).

Definition publish_topics (evs : list Event) : list string :=
  flat_map (fun e => match e with EPublish p => [pub_topic p] | _ => [] end) evs.


(** How many log lines carry message [m]. *)
Definition count_log (m : string) (ls : list LogLine) : nat :=
  List.length (filter (fun l => String.eqb (message l) m) ls).

(** Decimal digit strings and their value, to describe [parse_unsigned]. *)
Fixpoint all_digits (s : string) : bool :=
  match s with
  | EmptyString => true
  | String c rest => is_digit c && all_digits rest
  end.

Fixpoint decimal_value_from (acc : Z) (s : string) : Z :=
  match s with
  | EmptyString => acc
  | String c rest => decimal_value_from (acc * 10 + digit_value c)%Z rest
  end.

Definition decimal_value (s : string) : Z := decimal_value_from 0 s.

(** [l1] is [l2] with some elements left out, the rest in order. *)
Inductive subseq {A : Type} : list A -> list A -> Prop :=
| subseq_nil : subseq [] []
| subseq_keep l1 l2 x : subseq l1 l2 -> subseq (l1 ++ [x]) (l2 ++ [x])
| subseq_drop l1 l2 x : subseq l1 l2 -> subseq l1 (l2 ++ [x]).

(** The snapshot the scheduler holds but has not yet pushed. *)
Definition pending (s : Sys) : nat :=
  match sched s with SSending _ => 1 | _ => 0 end.

Definition sleep_seconds (evs : list Event) : nat :=
  fold_right (fun e acc => match e with ESleep n => n + acc | _ => acc end) 0 evs.

Definition discovery_ok_line (name : string) : Event :=
  ELog (mkLogLine Info ("Published MQTT discovery message for " ++ quoted name)%string).

Fixpoint json_lookup (key : string) (kvs : list (string * Json)) : option Json :=
  match kvs with
  | [] => None
  | (k, v) :: rest => if String.eqb k key then Some v else json_lookup key rest
  end.

(** The [state_topic] a discovery descriptor announces. *)
Definition announced_state_topic (j : Json) : option string :=
  match j with
  | JObject kvs => match json_lookup "state_topic" kvs with
                   | Some (JString t) => Some t
                   | _ => None
                   end
  | _ => None
  end.

(** * Properties *)

(** ** Helper lemmas *)

Lemma flatten_join_ok {A : Type} (h : JoinResult A) (v : A) :
  flatten_join h = Ok v <-> h = Ok (Ok v).
Proof.
  destruct h as [[a|e]|je]; cbv [flatten_join bind map_err]; split; intro H; congruence.
Qed.

Lemma flatten_join_err {A : Type} (h : JoinResult A) :
  (forall v, h <> Ok (Ok v)) -> exists e, flatten_join h = Err e.
Proof.
  destruct h as [[a|e]|je]; cbv [flatten_join bind map_err]; intro H.
  - exfalso; exact (H a eq_refl).
  - eauto.
  - eauto.
Qed.

Lemma perform_all_tests_ok (dl ul pg : JoinResult float) (r : TestResults) :
  perform_all_tests dl ul pg = Ok r ->
  flatten_join dl = Ok (download r) /\ flatten_join ul = Ok (upload r)
  /\ flatten_join pg = Ok (ping r).
Proof.
  unfold perform_all_tests.
  destruct (flatten_join dl); [|discriminate]; cbv [bind].
  destruct (flatten_join ul); [|discriminate].
  destruct (flatten_join pg); [|discriminate].
  intro H; injection H as <-; auto.
Qed.

(** ** C1: the aggregator is all-or-nothing *)

(** C1. [perform_all_tests] returns a snapshot exactly when all three
    probe tasks were joined and all three probes succeeded, and the snapshot
    holds their three values; if any task fails to join or any probe fails,
    it returns an error; and the scheduler step that receives that error
    pushes nothing into the channel and publishes nothing: it goes straight
    to its sleep. *)
Theorem perform_all_tests_all_or_nothing :
  forall dl ul pg : JoinResult float,
    (forall r, perform_all_tests dl ul pg = Ok r <->
       dl = Ok (Ok (download r)) /\ ul = Ok (Ok (upload r)) /\ pg = Ok (Ok (ping r)))
    /\ ((forall v, dl <> Ok (Ok v)) \/ (forall v, ul <> Ok (Ok v))
        \/ (forall v, pg <> Ok (Ok v)) ->
        exists e, perform_all_tests dl ul pg = Err e)
    /\ (forall s s' e, perform_all_tests dl ul pg = Err e ->
        step s (LCycle dl ul pg) = Some s' ->
        sched s' = SSleeping /\ chan s' = chan s /\ sent s' = sent s
        /\ published s' = published s).
Proof.
  intros dl ul pg; split; [|split].
  - intros [d u p]; simpl.
    destruct dl as [[d'|e]|je], ul as [[u'|e']|je'], pg as [[p'|e'']|je''];
      cbv [perform_all_tests flatten_join bind map_err]; split; intro H;
      repeat match goal with H : _ /\ _ |- _ => destruct H end;
      try discriminate; try congruence.
    injection H as <- <- <-; auto.
  - intros H; unfold perform_all_tests.
    destruct H as [H|[H|H]]; apply flatten_join_err in H as [e He].
    + rewrite He; simpl; eauto.
    + destruct (flatten_join dl); simpl; eauto; rewrite He; simpl; eauto.
    + destruct (flatten_join dl); simpl; eauto;
        destruct (flatten_join ul); simpl; eauto; rewrite He; simpl; eauto.
  - intros s s' e He Hs; simpl in Hs.
    destruct (sched s); try discriminate.
    rewrite He in Hs; injection Hs as <-; simpl; auto.
Qed.

(** ** C7: throughput in Mbps *)

(** C7. Whenever the engine's calls succeed, the download and upload
    probes return the engine's bits-per-second value divided by 1,000,000
    (binary64 division), and these are the values the per-kind messages of
    models.rs publish; an engine result of 50,000,000 bits per second is
    exactly 50.0 Mbps. *)
Theorem throughput_is_bps_over_million :
  forall (eng : Engine) config srvs best md mu,
    get_configuration eng = Ok config ->
    get_server_list_with_config eng config = Ok srvs ->
    get_best_server_based_on_latency eng (servers srvs) = Ok best ->
    test_download_with_progress_and_config eng (server best) config = Ok md ->
    test_upload_with_progress_and_config eng (server best) config = Ok mu ->
    perform_download_test eng None = Ok (bps_f64 md / 1000000)%float
    /\ perform_upload_test eng None = Ok (bps_f64 mu / 1000000)%float
    /\ (forall p ts,
          List.map value_template
            (firstn 2 (messages_of_result
                         (mkSpeedTestResult (bps_f64 md / 1000000) (bps_f64 mu / 1000000) p ts)))
          = [(bps_f64 md / 1000000)%float; (bps_f64 mu / 1000000)%float])
    /\ (50000000 / 1000000 = 50)%float.
Proof.
  intros eng config srvs best md mu Hc Hs Hb Hd Hu.
  unfold perform_download_test, perform_upload_test, await_blocking, lift.
  rewrite Hc; simpl; rewrite Hs; simpl; rewrite Hb; simpl; rewrite Hd, Hu; simpl.
  repeat split.
Qed.

Lemma throughput_is_bps_over_million_witness :
  perform_download_test sample_engine None = Ok 50%float
  /\ perform_upload_test sample_engine None = Ok 10%float.
Proof.
  destruct (throughput_is_bps_over_million sample_engine (mkSpeedTestConfig "192.0.2.1")
              (mkServerListConfig [sample_server])
              (mkLatencyTestResult sample_server (mkDuration 0 10000000))
              (mkSpeedMeasurement 50000000) (mkSpeedMeasurement 10000000)
              eq_refl eq_refl eq_refl eq_refl eq_refl) as [Hd [Hu _]].
  rewrite Hd, Hu; split; reflexivity.
Defined.

(** ** C10: per-kind messages of a result *)

(** C10. A [SpeedTestResult] converts to exactly three messages, in the
    order download, upload, ping, with the fixed state topics
    homeassistant/sensor/Speedtest/{Download,Upload,Ping}, units Mbps,
    Mbps, ms, and the result's three values unchanged as value_template;
    results that differ only in their timestamp give the same messages. *)
Theorem messages_of_result_spec :
  forall r : SpeedTestResult,
    List.length (messages_of_result r) = 3
    /\ List.map name (messages_of_result r)
       = ["Speedtest Download"; "Speedtest Upload"; "Speedtest Ping"]
    /\ List.map state_topic (messages_of_result r)
       = ["homeassistant/sensor/Speedtest/Download";
          "homeassistant/sensor/Speedtest/Upload";
          "homeassistant/sensor/Speedtest/Ping"]
    /\ List.map unit_of_measurement (messages_of_result r) = ["Mbps"; "Mbps"; "ms"]
    /\ List.map value_template (messages_of_result r)
       = [str_download r; str_upload r; str_ping r]
    /\ (forall ts, messages_of_result r
                   = messages_of_result
                       (mkSpeedTestResult (str_download r) (str_upload r) (str_ping r) ts)).
Proof.
  intros [d u p t]; repeat split.
Qed.

(** ** The hand-off channel *)

Lemma channel_inv_init : channel_inv init.
Proof. unfold channel_inv; simpl; repeat split; auto; discriminate. Qed.

Lemma step_channel_inv (s s' : Sys) (l : Label) :
  channel_inv s -> step s l = Some s' -> channel_inv s'.
Proof.
  destruct s as [sc ch ro pr se re di pu cy lg].
  unfold channel_inv; simpl; intros [Hlen [Hfifo [Hcl Hop]]] H.
  destruct l; simpl in H.
  - destruct sc; try discriminate.
    destruct (perform_all_tests dl ul pg); injection H as <-; simpl; auto.
  - destruct sc as [|r|]; try discriminate.
    destruct ro.
    + destruct (Nat.ltb (List.length ch) channel_capacity) eqn:Hlt; try discriminate.
      injection H as <-; simpl.
      apply Nat.ltb_lt in Hlt; unfold channel_capacity in Hlt.
      destruct ch; simpl in Hlt; [|lia].
      rewrite Hop in Hfifo |- * by reflexivity; subst se; simpl.
      rewrite !app_nil_r; repeat split; auto; discriminate.
    + injection H as <-; simpl; auto.
  - destruct sc; try discriminate; injection H as <-; simpl; auto.
  - destruct ro; try discriminate.
    destruct ch as [|r rest]; try discriminate.
    injection H as <-; simpl in *.
    destruct rest; simpl in Hlen; [|lia].
    rewrite Hfifo, <- app_assoc; simpl.
    repeat split; auto; try discriminate; intros _; apply Hop; reflexivity.
  - destruct ro; try discriminate.
    injection H as <-; simpl.
    rewrite Hop in Hfifo |- * by reflexivity; simpl.
    rewrite Hfifo, app_nil_r; repeat split; auto.
  - destruct pr; try discriminate.
    destruct outcome; injection H as <-; simpl; auto.
Qed.

Lemma run_channel_inv (ls : list Label) :
  forall s s', channel_inv s -> run s ls = Some s' -> channel_inv s'.
Proof.
  induction ls as [|l ls IH]; simpl; intros s s' Hs H.
  - injection H as <-; exact Hs.
  - destruct (step s l) as [s1|] eqn:Hst; try discriminate.
    exact (IH s1 s' (step_channel_inv s s1 l Hs Hst) H).
Qed.

(** ** C6: capacity one, FIFO, back-pressure *)

(** C6. In every reachable state the channel buffers at most one snapshot,
    and while the receiver lives the snapshots received, followed by the
    one buffered, are exactly those sent, in sending order.  A pending
    snapshot enters an empty channel at once (capacity is one, not zero).
    While one snapshot is buffered and the receiver lives, the scheduler
    stays at its [send] with its snapshot, whatever the other tasks do: it
    neither drops the snapshot nor reaches its sleep. *)
Theorem handoff_channel_capacity_one_fifo :
  forall (ls : list Label) (s : Sys),
    run init ls = Some s ->
    List.length (chan s) <= 1
    /\ (rx_open s = true -> sent s = received s ++ chan s)
    /\ (forall r, sched s = SSending r -> rx_open s = true -> chan s = [] ->
        exists s', step s LSend = Some s' /\ chan s' = [r] /\ sched s' = SSleeping)
    /\ (forall r, sched s = SSending r -> rx_open s = true -> List.length (chan s) = 1 ->
        forall l s', step s l = Some s' -> sched s' = SSending r).
Proof.
  intros ls s Hrun.
  destruct (run_channel_inv ls init s channel_inv_init Hrun) as [Hlen [Hfifo [_ Hop]]].
  split; [exact Hlen|split; [|split]].
  - intro Ho; rewrite Hfifo, (Hop Ho), app_nil_r; reflexivity.
  - intros r Hs Ho Hc.
    destruct s as [sc ch ro pr se re di pu cy lg]; simpl in *; subst.
    eexists; simpl; split; [reflexivity|auto].
  - intros r Hs Ho Hc l s' Hst.
    destruct s as [sc ch ro pr se re di pu cy lg]; simpl in *; subst.
    destruct l; simpl in Hst.
    + discriminate.
    + rewrite Hc in Hst; discriminate.
    + discriminate.
    + destruct ch; try discriminate; injection Hst as <-; reflexivity.
    + injection Hst as <-; reflexivity.
    + destruct pr; try discriminate.
      destruct outcome; injection Hst as <-; reflexivity.
Qed.

(** The run of C6's witness: two successful cycles, the second one's
    snapshot meeting a full channel. *)
Lemma handoff_channel_capacity_one_fifo_witness :
  exists s, run init [sample_cycle; LSend; LSleep; sample_cycle] = Some s
    /\ List.length (chan s) = 1
    /\ sched s = SSending sample_snapshot
    /\ (forall l s', step s l = Some s' -> sched s' = SSending sample_snapshot).
Proof.
  eexists; split; [reflexivity|].
  split; [reflexivity|split; [reflexivity|]].
  apply (handoff_channel_capacity_one_fifo [sample_cycle; LSend; LSleep; sample_cycle]);
    reflexivity.
Defined.

(** ** C3: a poll failure ends only the pump *)

(** Once the pump has left its loop it stays out of it, and no publish
    succeeds any more. *)
Lemma step_pump_stopped (s s' : Sys) (l : Label) :
  pump_running s = false -> step s l = Some s' ->
  pump_running s' = false /\ published s' = published s.
Proof.
  destruct s as [sc ch ro pr se re di pu cy lg]; simpl; intros Hp H; subst pr.
  destruct l; simpl in H; try discriminate H;
    repeat match type of H with
           | context [match ?x with _ => _ end] => destruct x; simpl in H; try discriminate H
           end;
    injection H as <-; split; reflexivity.
Qed.

Lemma run_pump_stopped (ls : list Label) :
  forall s s', pump_running s = false -> run s ls = Some s' ->
  pump_running s' = false /\ published s' = published s.
Proof.
  induction ls as [|l ls IH]; simpl; intros s s' Hp H.
  - injection H as <-; split; [exact Hp|reflexivity].
  - destruct (step s l) as [s1|] eqn:Hst; [|discriminate].
    destruct (step_pump_stopped s s1 l Hp Hst) as [Hp1 Hpub1].
    destruct (IH s1 s' Hp1 H) as [Hp' Hpub']; split; [exact Hp'|congruence].
Qed.

(** C3 (as the code has it). A poll error is logged and ends the pump's
    loop, and nothing else changes.  In every state the program reaches
    afterwards: the pump polls no more; every publish fails, since the
    pump's [EventLoop] with the request queue is gone, and is logged as an
    error, so nothing more is published; [main] has not returned (it awaits
    the scheduler, whose loop never ends); the scheduler can still start
    its next cycle and finish its sleep, and the publisher can still take
    a buffered snapshot.  [main]'s result, [Ok(())], means exit code 0. *)
Theorem poll_failure_stops_only_the_pump :
  forall (s : Sys) (e : ConnectionError),
    pump_running s = true ->
    exists s1,
      step s (LPoll (Err e)) = Some s1
      /\ logs s1 = logs s ++ [mkLogLine Error "MQTT connection error"]
      /\ sched s1 = sched s /\ chan s1 = chan s /\ rx_open s1 = rx_open s
      /\ sent s1 = sent s /\ received s1 = received s /\ published s1 = published s
      /\ cycles s1 = cycles s
      /\ forall ls s2, run s1 ls = Some s2 ->
           pump_running s2 = false
           /\ (forall o, step s2 (LPoll o) = None)
           /\ published s2 = published s
           /\ main_returned s2 = false
           /\ (sched s2 = SRunCycle -> forall dl ul pg,
                 exists s3, step s2 (LCycle dl ul pg) = Some s3 /\ cycles s3 = S (cycles s2))
           /\ (sched s2 = SSleeping ->
                 exists s3, step s2 LSleep = Some s3 /\ sched s3 = SRunCycle)
           /\ (forall r rest, rx_open s2 = true -> chan s2 = r :: rest -> forall o,
                 exists s3, step s2 (LRecv o) = Some s3
                   /\ received s3 = received s2 ++ [r]
                   /\ published s3 = published s2
                   /\ logs s3 = logs s2 ++ [mkLogLine Error "MQTT publish error"])
           /\ exit_code main_result = 0%Z.
Proof.
  intros [sc ch ro pr se re di pu cy lg] e Hp; simpl in Hp; subst pr.
  eexists; split; [reflexivity|].
  repeat (split; [reflexivity|]).
  intros ls s2 Hrun.
  apply run_pump_stopped in Hrun as [Hp2 Hpub2]; [|reflexivity].
  destruct s2 as [sc2 ch2 ro2 pr2 se2 re2 di2 pu2 cy2 lg2]; simpl in Hp2, Hpub2 |- *.
  subst pr2.
  split; [reflexivity|].
  split; [intros o; reflexivity|].
  split; [exact Hpub2|].
  split; [reflexivity|].
  split; [intros Hs dl ul pg; subst sc2;
          destruct (perform_all_tests dl ul pg); eexists; split; reflexivity|].
  split; [intros Hs; subst sc2; eexists; split; reflexivity|].
  split; [|reflexivity].
  intros r rest Ho Hc o; subst ro2 ch2.
  eexists; repeat split.
Qed.

(** C3's theorem from the initial state: after the first poll fails,
    [main] never returns and nothing is ever published. *)
Lemma poll_failure_stops_only_the_pump_witness :
  exists s1, step init (LPoll (Err sample_connection_error)) = Some s1
    /\ forall ls s2, run s1 ls = Some s2 -> main_returned s2 = false /\ published s2 = [].
Proof.
  destruct (poll_failure_stops_only_the_pump init sample_connection_error eq_refl)
    as [s1 [H1 [_ [_ [_ [_ [_ [_ [Hpu [_ Hlater]]]]]]]]]].
  exists s1; split; [exact H1|].
  intros ls s2 Hrun.
  destruct (Hlater ls s2 Hrun) as [_ [_ [Hp [Hm _]]]].
  split; [exact Hm|rewrite Hp; reflexivity].
Defined.

(** C3 fails: after a failed poll the program does not terminate: it
    runs a measurement cycle, hands its snapshot to the publisher (whose
    publish fails), and starts a second cycle; [main] has not returned,
    and were it to return, its exit code would be 0. *)
Lemma poll_failure_is_not_fatal :
  exists s,
    run init [LPoll (Err sample_connection_error); sample_cycle; LSend;
              LRecv (Err request_queue_closed); LSleep; sample_cycle] = Some s
    /\ pump_running s = false
    /\ cycles s = 2
    /\ received s = [sample_snapshot]
    /\ published s = []
    /\ logs s = [mkLogLine Error "MQTT connection error"; mkLogLine Error "MQTT publish error"]
    /\ main_returned s = false
    /\ exit_code main_result = 0%Z.
Proof.
  eexists; split; [reflexivity|]; repeat split.
Qed.

(** ** C4: a closed channel *)

(** C4 (as the code has it). When the receiver is gone, the scheduler's
    [send] fails without panic: it logs a warning, keeps its channel and
    its sent values unchanged, goes to its sleep, and afterwards runs
    its next cycle, whatever that cycle's outcome. *)
Theorem closed_channel_send_warns_and_continues :
  forall (s : Sys) (r : TestResults),
    sched s = SSending r -> rx_open s = false ->
    exists s1 s2,
      step s LSend = Some s1
      /\ sched s1 = SSleeping /\ chan s1 = chan s /\ sent s1 = sent s
      /\ logs s1 = logs s ++ [mkLogLine Warn "Failed to send test results to MQTT"]
      /\ step s1 LSleep = Some s2 /\ sched s2 = SRunCycle
      /\ (forall dl ul pg, exists s3,
            step s2 (LCycle dl ul pg) = Some s3 /\ cycles s3 = S (cycles s)).
Proof.
  intros [sc ch ro pr se re di pu cy lg] r Hs Ho; simpl in *; subst sc ro.
  do 2 eexists; split; [reflexivity|].
  repeat (split; [reflexivity|]).
  intros dl ul pg; simpl.
  destruct (perform_all_tests dl ul pg); eexists; split; reflexivity.
Qed.

(** The state of C4's witness: the publisher ended, then a cycle
    succeeded. *)
Lemma closed_channel_send_warns_and_continues_witness :
  exists s, run init [LRxClose; sample_cycle] = Some s
    /\ exists s1 s2, step s LSend = Some s1 /\ step s1 LSleep = Some s2
                     /\ sched s2 = SRunCycle.
Proof.
  eexists; split; [reflexivity|].
  destruct (closed_channel_send_warns_and_continues
              (mkSys (SSending sample_snapshot) [] false true [] [] [] [] 1 [])
              sample_snapshot eq_refl eq_refl)
    as [s1 [s2 [H1 [_ [_ [_ [_ [H2 [H3 _]]]]]]]]].
  exists s1, s2; auto.
Defined.

(** C4 fails: after the push to a closed channel fails, the scheduler does
    not end its loop: it sleeps and runs a second cycle. *)
Lemma closed_channel_scheduler_keeps_measuring :
  exists s,
    run init [LRxClose; sample_cycle; LSend; LSleep; sample_cycle] = Some s
    /\ rx_open s = false
    /\ cycles s = 2
    /\ logs s = [mkLogLine Warn "Failed to send test results to MQTT"].
Proof.
  eexists; split; [reflexivity|]; repeat split.
Qed.

(** ** Discovery publishing *)

Lemma stream_eta3 {A : Type} (s : Stream A) :
  s = Cons (hd s) (Cons (hd (tl s)) (Cons (hd (tl (tl s))) (tl (tl (tl s))))).
Proof. destruct s as [a [b [c s]]]; reflexivity. Qed.

(** The retry loop of one descriptor, by the outcomes of its first three
    publishes. *)
Lemma retry_publish_cases (name topic : string) (msg : Json) (o1 o2 o3 : result unit ClientError)
  (rest : PublishOutcomes) :
  let P := EPublish (mkPublish topic AtLeastOnce true (PJson msg)) in
  let ok := ELog (mkLogLine Info ("Published MQTT discovery message for " ++ quoted name)%string) in
  let retry n := ELog (mkLogLine Warn ("Retrying MQTT publish for " ++ quoted name
                                        ++ " (attempt " ++ digit n ++ "/3)")%string) in
  let failed := ELog (mkLogLine Error
                        ("Failed to publish MQTT discovery message for " ++ quoted name)%string) in
  retry_publish name topic msg attempt_range (Cons o1 (Cons o2 (Cons o3 rest)))
  = match o1, o2, o3 with
    | Ok _, _, _ => ([P; ok], Continue, Cons o2 (Cons o3 rest))
    | Err _, Ok _, _ => ([P; retry 1; ESleep 1; P; ok], Continue, Cons o3 rest)
    | Err _, Err _, Ok _ =>
        ([P; retry 1; ESleep 1; P; retry 2; ESleep 1; P; ok], Continue, rest)
    | Err _, Err _, Err e =>
        ([P; retry 1; ESleep 1; P; retry 2; ESleep 1; P; failed], Return e, rest)
    end.
Proof. destruct o1, o2, o3; reflexivity. Qed.

(** Every publish of the retry loop goes to its topic, at least once, retained. *)
Lemma retry_publish_retained (name topic : string) (msg : Json) (attempts : list nat) :
  forall outs,
    Forall (fun e => match e with
                     | EPublish p => p = mkPublish topic AtLeastOnce true (PJson msg)
                     | _ => True
                     end)
      (fst (fst (retry_publish name topic msg attempts outs))).
Proof.
  induction attempts as [|a attempts IH]; intro outs; simpl; [constructor|].
  destruct (hd outs); simpl; [repeat constructor|].
  destruct (Nat.ltb a 3); [|repeat constructor].
  specialize (IH (tl outs)).
  destruct (retry_publish name topic msg attempts (tl outs)) as [[evs ex] o]; simpl in *.
  repeat constructor; exact IH.
Qed.

Lemma discovery_loop_retained (ds : list (string * string * string)) :
  incl ds discovery_messages ->
  forall outs, Forall discovery_publish_ok (fst (discovery_loop ds outs)).
Proof.
  induction ds as [|[[name unit] dc] ds IH]; intros Hincl outs; cbn [discovery_loop];
    [constructor|].
  pose proof (retry_publish_retained name (config_topic name) (config_message name unit dc)
                attempt_range outs) as Hr.
  destruct (retry_publish name (config_topic name) (config_message name unit dc)
              attempt_range outs) as [[evs ex] o]; simpl in Hr.
  assert (Hin : In (name, unit, dc) discovery_messages) by (apply Hincl; left; reflexivity).
  assert (Hevs : Forall discovery_publish_ok evs).
  { eapply Forall_impl; [|exact Hr].
    intros [p| |] Hp; simpl; auto; subst p; simpl.
    repeat split; exists name, unit, dc; auto. }
  destruct ex; cbn [fst]; [|exact Hevs].
  specialize (IH (fun x Hx => Hincl x (or_intror Hx)) o).
  destruct (discovery_loop ds o) as [evs' r]; simpl in *.
  apply Forall_app; split; assumption.
Qed.


Ltac one_descriptor :=
  match goal with
  | |- context [retry_publish ?n ?t ?m attempt_range ?s] =>
      rewrite (stream_eta3 s), retry_publish_cases;
      destruct (hd s); [|destruct (hd (tl s)); [|destruct (hd (tl (tl s)))]];
      cbv beta iota zeta
  end.

Ltac failing_descriptor k :=
  exists k; split; [lia|]; split; [vm_compute; reflexivity|];
  split; [match goal with |- exists evs0, ?l = _ =>
            exists (removelast l); vm_compute; reflexivity end|];
  intros j Hj; destruct j as [|[|[|j]]]; try lia; vm_compute; reflexivity.

(** ** C2: bounded retries per descriptor *)

(** C2 (as the code has it). Each descriptor is published at most three
    times: after a failed attempt 1 or 2 a warning is logged and the loop
    sleeps one second before the next attempt, and a success ends the
    loop; after a third failure the error is logged and
    [publish_discovery_message] returns [Err] at once, so no descriptor
    after the failing one is attempted. *)
Theorem discovery_retry_bounded_then_returns :
  (forall name topic msg o1 o2 o3 rest,
     let P := EPublish (mkPublish topic AtLeastOnce true (PJson msg)) in
     let ok := ELog (mkLogLine Info
                       ("Published MQTT discovery message for " ++ quoted name)%string) in
     let retry n := ELog (mkLogLine Warn ("Retrying MQTT publish for " ++ quoted name
                                           ++ " (attempt " ++ digit n ++ "/3)")%string) in
     retry_publish name topic msg attempt_range (Cons o1 (Cons o2 (Cons o3 rest)))
     = match o1, o2, o3 with
       | Ok _, _, _ => ([P; ok], Continue, Cons o2 (Cons o3 rest))
       | Err _, Ok _, _ => ([P; retry 1; ESleep 1; P; ok], Continue, Cons o3 rest)
       | Err _, Err _, Ok _ =>
           ([P; retry 1; ESleep 1; P; retry 2; ESleep 1; P; ok], Continue, rest)
       | Err _, Err _, Err e =>
           ([P; retry 1; ESleep 1; P; retry 2; ESleep 1; P; discovery_failed_line name],
            Return e, rest)
       end)
  /\ (forall outs name, In name discovery_names ->
        publishes_to (config_topic name) (fst (publish_discovery_message outs)) <= 3)
  /\ (forall outs evs e, publish_discovery_message outs = (evs, Err e) ->
        exists k, k < 3
          /\ publishes_to (config_topic (nth k discovery_names "")) evs = 3
          /\ (exists evs0, evs = evs0 ++ [discovery_failed_line (nth k discovery_names "")])
          /\ (forall j, k < j < 3 -> publishes_to (config_topic (nth j discovery_names "")) evs = 0)).
Proof.
  split; [|split].
  - intros; apply retry_publish_cases.
  - intros outs name Hin.
    unfold publish_discovery_message; cbn [discovery_loop discovery_messages].
    repeat one_descriptor;
      simpl in Hin; destruct Hin as [<-|[<-|[<-|[]]]]; vm_compute; lia.
  - intros outs evs e.
    unfold publish_discovery_message; cbn [discovery_loop discovery_messages].
    repeat one_descriptor; intro H; try discriminate; injection H as <- _;
      first [ failing_descriptor 0 | failing_descriptor 1 | failing_descriptor 2 ].
Qed.

(** C2 fails: when every publish fails, the download descriptor is tried
    three times and the function returns [Err]; the upload and ping
    descriptors are never attempted. *)
Lemma discovery_failure_skips_remaining_descriptors :
  snd (publish_discovery_message all_publishes_fail)
    = Err (Errors.MqttClientError sample_client_error)
  /\ publishes_to (config_topic "download") (fst (publish_discovery_message all_publishes_fail)) = 3
  /\ publishes_to (config_topic "upload") (fst (publish_discovery_message all_publishes_fail)) = 0
  /\ publishes_to (config_topic "ping") (fst (publish_discovery_message all_publishes_fail)) = 0.
Proof. vm_compute; repeat split. Qed.

Lemma step_publishes_state_only (s s' : Sys) (l : Label) :
  step s l = Some s' ->
  exists new, published s' = published s ++ new
              /\ Forall (fun p => exists r, p = summary_publish r) new.
Proof.
  destruct s as [sc ch ro pr se re di pu cy lg]; intro H.
  destruct l; simpl in H.
  - destruct sc; try discriminate.
    destruct (perform_all_tests dl ul pg); injection H as <-; exists []; simpl;
      rewrite app_nil_r; auto.
  - destruct sc; try discriminate.
    destruct ro; [destruct (Nat.ltb (List.length ch) channel_capacity); try discriminate|];
      injection H as <-; exists []; simpl; rewrite app_nil_r; auto.
  - destruct sc; try discriminate; injection H as <-; exists []; simpl; rewrite app_nil_r; auto.
  - destruct ro; try discriminate; destruct ch as [|r rest]; try discriminate.
    injection H as <-; simpl.
    destruct (if pr then outcome else Err request_queue_closed);
      [exists [summary_publish r]|exists []]; simpl;
      rewrite ?app_nil_r; split; eauto.
  - destruct ro; try discriminate; injection H as <-; exists []; simpl; rewrite app_nil_r; auto.
  - destruct pr; try discriminate.
    destruct outcome; injection H as <-; exists []; simpl; rewrite app_nil_r; auto.
Qed.

Lemma run_publishes_state_only (ls : list Label) :
  forall s s', Forall (fun p => exists r, p = summary_publish r) (published s) ->
  run s ls = Some s' -> Forall (fun p => exists r, p = summary_publish r) (published s').
Proof.
  induction ls as [|l ls IH]; simpl; intros s s' Hs H.
  - injection H as <-; exact Hs.
  - destruct (step s l) as [s1|] eqn:Hst; try discriminate.
    apply (IH s1); [|exact H].
    destruct (step_publishes_state_only s s1 l Hst) as [new [Heq Hnew]].
    rewrite Heq; apply Forall_app; auto.
Qed.

(** ** C8: discovery messages and the running publisher *)

(** C8 (as the code has it). Every publish [publish_discovery_message]
    makes is retained, at least once, and carries a descriptor of
    [discovery_messages] to that kind's config topic; when every publish
    succeeds it publishes exactly one descriptor per kind, for download,
    upload and ping in this order, and returns [Ok].  The publisher task of
    main.rs never calls it: everything the running program publishes is a
    snapshot summary on speedtest/results, not retained. *)
Theorem discovery_retained_but_not_called_by_publisher :
  (forall outs, Forall discovery_publish_ok (fst (publish_discovery_message outs)))
  /\ publish_topics (fst (publish_discovery_message all_publishes_ok))
     = List.map config_topic discovery_names
  /\ snd (publish_discovery_message all_publishes_ok) = Ok tt
  /\ (forall ls s, run init ls = Some s ->
        Forall (fun p => pub_topic p = "speedtest/results" /\ pub_retain p = false
                         /\ exists r, pub_payload p = PSummary r)
          (published s)).
Proof.
  split; [|split; [|split]].
  - intro outs; apply discovery_loop_retained; intros x Hx; exact Hx.
  - vm_compute; reflexivity.
  - vm_compute; reflexivity.
  - intros ls s H.
    apply (run_publishes_state_only ls init s (Forall_nil _)) in H.
    eapply Forall_impl; [|exact H].
    intros p [r ->]; simpl; eauto.
Qed.

(** C8 fails: the first message the running publisher sends is the
    snapshot of the first cycle, not retained, with no discovery message
    published before it. *)
Lemma first_publish_is_a_snapshot :
  exists s,
    run init [sample_cycle; LSend; LRecv (Ok tt)] = Some s
    /\ published s = [mkPublish "speedtest/results" AtLeastOnce false (PSummary sample_snapshot)].
Proof. eexists; split; reflexivity. Qed.


(** ** C5: latency probing *)

(** C5 (as the code has it). The program has no jitter mode: the probes it
    runs are download, upload and ping, and the ping probe takes a single
    reading, the engine's best-server latency, and returns it converted to
    milliseconds; a successful cycle's ping field is that value. *)
Theorem ping_probe_single_latency_reading :
  forall (eng : Engine) config srvs best,
    get_configuration eng = Ok config ->
    get_server_list_with_config eng config = Ok srvs ->
    get_best_server_based_on_latency eng (servers srvs) = Ok best ->
    run_probe Ping eng = Ok (as_secs_f64 (latency best) * 1000)%float
    /\ (forall r, run_cycle eng None None None None None None = Ok r ->
          ping r = (as_secs_f64 (latency best) * 1000)%float).
Proof.
  intros eng config srvs best Hc Hs Hb.
  assert (Hp : perform_ping_test eng None = Ok (as_secs_f64 (latency best) * 1000)%float).
  { unfold perform_ping_test, await_blocking, lift.
    rewrite Hc; simpl; rewrite Hs; simpl; rewrite Hb; reflexivity. }
  split; [exact Hp|].
  intros r Hr; unfold run_cycle in Hr; cbn [spawned] in Hr.
  rewrite Hp in Hr.
  apply perform_all_tests_ok in Hr as [_ [_ Hr]].
  cbv [flatten_join bind map_err] in Hr.
  injection Hr as Hr; exact (eq_sym Hr).
Qed.

Lemma ping_probe_single_latency_reading_witness :
  run_probe Ping sample_engine
  = Ok (as_secs_f64 (mkDuration 0 10000000) * 1000)%float.
Proof.
  destruct (ping_probe_single_latency_reading sample_engine (mkSpeedTestConfig "192.0.2.1")
              (mkServerListConfig [sample_server])
              (mkLatencyTestResult sample_server (mkDuration 0 10000000))
              eq_refl eq_refl eq_refl) as [H _].
  exact H.
Defined.

(** C5 fails: with an engine whose latency readings are all 10 ms, the
    spec's jitter of ten such samples is 0, and no probe the program runs
    returns 0; the spec's example [10, 20, 30] has jitter 20/3. *)
Lemma no_probe_computes_jitter :
  spec_jitter (repeat 10%float 10) = 0%float
  /\ spec_jitter [10; 20; 30]%float = (20 / 3)%float
  /\ Forall (fun k => run_probe k sample_engine <> Ok (spec_jitter (repeat 10%float 10)))
       [Download; Upload; Ping].
Proof.
  split; [vm_compute; reflexivity|split; [vm_compute; reflexivity|]].
  repeat constructor; intro H;
    apply (f_equal (fun r => match r with
                             | Ok v => Prim2SF v
                             | Err _ => Prim2SF 0%float
                             end)) in H;
    vm_compute in H; discriminate.
Qed.

(** ** C9: no timestamp in a cycle's snapshot *)

(** C9 (as the code has it). A cycle's snapshot ([TestResults]) holds the
    three probe values only: it is the same whenever the cycle starts or
    completes.  [SpeedTestResult::new], which the cycle does not call,
    stamps its result with the one clock reading it makes when called. *)
Theorem cycle_snapshot_has_no_timestamp :
  (forall start start' dd du dp dl ul pg,
     snd (run_cycle_timed start dd du dp dl ul pg)
     = snd (run_cycle_timed start' dd du dp dl ul pg))
  /\ (forall d u p now,
        speed_test_result_new d u p now = mkSpeedTestResult d u p now
        /\ timestamp (speed_test_result_new d u p now) = utc_now now).
Proof. split; intros; [reflexivity|split; reflexivity]. Qed.

(** C9 fails: the same snapshot comes out of a cycle that completes at 7
    and of one that completes at 107, so it carries no completion time. *)
Lemma snapshot_independent_of_completion_time :
  run_cycle_timed 0%Z 5%Z 7%Z 3%Z (probe_ok 50) (probe_ok 10) (probe_ok 12)
    = (7%Z, Ok sample_snapshot)
  /\ run_cycle_timed 100%Z 5%Z 7%Z 3%Z (probe_ok 50) (probe_ok 10) (probe_ok 12)
    = (107%Z, Ok sample_snapshot).
Proof. split; reflexivity. Qed.

(** ** Parsing unsigned integers *)

Lemma digit_value_nonneg (c : Ascii.ascii) : (0 <= digit_value c)%Z.
Proof. unfold digit_value; lia. Qed.

Lemma decimal_value_from_ge (s : string) :
  forall acc, (0 <= acc)%Z -> (acc <= decimal_value_from acc s)%Z.
Proof.
  induction s as [|c rest IH]; intros acc Hacc; simpl; [lia|].
  pose proof (digit_value_nonneg c).
  specialize (IH (acc * 10 + digit_value c)%Z ltac:(lia)); lia.
Qed.

Lemma parse_digits_spec (max : Z) (s : string) :
  forall acc n, (0 <= acc <= max)%Z ->
    parse_digits max acc s = Some n
    <-> all_digits s = true /\ decimal_value_from acc s = n /\ (n <= max)%Z.
Proof.
  induction s as [|c rest IH]; intros acc n Hacc; simpl.
  - split; [intros H; injection H as <-; lia|intros [_ [<- _]]; reflexivity].
  - destruct (is_digit c) eqn:Hd; simpl; [|split; [discriminate|intros [H _]; discriminate]].
    pose proof (digit_value_nonneg c).
    destruct (Z.leb_spec (acc * 10 + digit_value c) max) as [Hle|Hgt].
    + apply IH; lia.
    + split; [discriminate|].
      intros [_ [Hv Hn]].
      pose proof (decimal_value_from_ge rest (acc * 10 + digit_value c)%Z ltac:(lia)); lia.
Qed.

Lemma parse_digits_range (max : Z) (s : string) :
  forall acc n, (0 <= acc <= max)%Z -> parse_digits max acc s = Some n -> (0 <= n <= max)%Z.
Proof.
  intros acc n Hacc H; apply parse_digits_spec in H as [_ [Hv Hn]]; [|exact Hacc].
  pose proof (decimal_value_from_ge s acc ltac:(lia)); lia.
Qed.

Lemma parse_unsigned_range (max : Z) (s : string) (n : Z) :
  (0 <= max)%Z -> parse_unsigned max s = Some n -> (0 <= n <= max)%Z.
Proof.
  intros Hmax; destruct s as [|c rest]; cbv beta iota delta [parse_unsigned];
    [discriminate|].
  destruct ((Ascii.eqb c "+"%char || Ascii.eqb c "-"%char) && String.eqb rest "");
    [discriminate|].
  destruct (Ascii.eqb c "+"%char); apply parse_digits_range; lia.
Qed.

Lemma parse_or_range (max default : Z) (v : option string) :
  (0 <= max)%Z -> (0 <= default <= max)%Z -> (0 <= parse_or max default v <= max)%Z.
Proof.
  intros Hmax Hd; destruct v as [val|]; simpl; [|exact Hd].
  destruct (parse_unsigned max val) eqn:Hp; [|exact Hd].
  exact (parse_unsigned_range max val z Hmax Hp).
Qed.

(** X1. [str::parse] for an unsigned type with largest value [max]
    accepts exactly the non-empty strings of decimal digits, optionally
    after one [+], whose value is at most [max]; it returns that value.
    Anything else (empty, a sign alone, a [-], whitespace, any other
    character, an overflow) is refused. *)
Theorem parse_unsigned_spec (max : Z) (Hmax : (0 <= max)%Z) (s : string) (n : Z) :
  parse_unsigned max s = Some n
  <-> exists ds, (s = ds \/ s = String "+"%char ds) /\ ds <> EmptyString
                 /\ all_digits ds = true /\ decimal_value ds = n /\ (n <= max)%Z.
Proof.
  unfold decimal_value.
  destruct s as [|c rest]; cbv beta iota delta [parse_unsigned].
  - split; [discriminate|].
    intros [ds [[<-|H] [Hne _]]]; [congruence|discriminate].
  - destruct (Ascii.eqb c "+"%char) eqn:Hplus; cbn [orb andb].
    + apply Ascii.eqb_eq in Hplus; subst c.
      destruct (String.eqb rest "") eqn:Hr.
      * apply String.eqb_eq in Hr; subst rest.
        split; [discriminate|].
        intros [ds [[<-|H] [Hne [Hd _]]]]; [discriminate|injection H as <-; congruence].
      * rewrite (parse_digits_spec max rest 0 n ltac:(lia)).
        split.
        -- intros [Hd [Hv Hn]]; exists rest; repeat split; auto.
           intros ->; discriminate Hr.
        -- intros [ds [[<-|H] [_ [Hd [Hv Hn]]]]]; [discriminate|].
           injection H as <-; auto.
    + apply Ascii.eqb_neq in Hplus.
      assert (Hpd : parse_digits max 0 (String c rest) = Some n
                    <-> exists ds, (String c rest = ds \/ String c rest = String "+"%char ds)
                                   /\ ds <> EmptyString /\ all_digits ds = true
                                   /\ decimal_value_from 0 ds = n /\ (n <= max)%Z).
      { rewrite (parse_digits_spec max (String c rest) 0 n ltac:(lia)).
        split.
        - intros [Hd [Hv Hn]]; exists (String c rest); repeat split; auto; discriminate.
        - intros [ds [[<-|H] [_ [Hd [Hv Hn]]]]]; [auto|].
          injection H as H _; contradiction. }
      destruct (Ascii.eqb c "-"%char && String.eqb rest "") eqn:Hm; [|exact Hpd].
      apply andb_prop in Hm as [Hm Hr].
      apply Ascii.eqb_eq in Hm; apply String.eqb_eq in Hr; subst c rest.
      split; [discriminate|].
      intros [ds [[<-|H] [_ [Hd _]]]]; [discriminate|injection H as H _; discriminate].
Qed.

Lemma parse_unsigned_spec_witness :
  (0 <= u16_max)%Z
  /\ (parse_unsigned u16_max "+8883" = Some 8883%Z
      <-> exists ds, ("+8883" = ds \/ "+8883" = String "+"%char ds) /\ ds <> EmptyString
                     /\ all_digits ds = true /\ decimal_value ds = 8883%Z
                     /\ (8883 <= u16_max)%Z).
Proof.
  split; [unfold u16_max; lia|].
  apply (parse_unsigned_spec u16_max ltac:(unfold u16_max; lia)).
Defined.

(** ** Configuration *)

Lemma ascii_lower_idem (c : Ascii.ascii) :
  Log.ascii_lower (Log.ascii_lower c) = Log.ascii_lower c.
Proof.
  destruct c as [b0 b1 b2 b3 b4 b5 b6 b7];
    destruct b0, b1, b2, b3, b4, b5, b6, b7; vm_compute; reflexivity.
Qed.

Lemma lower_idem (s : string) : Log.lower (Log.lower s) = Log.lower s.
Proof.
  induction s as [|c rest IH]; simpl; [reflexivity|].
  rewrite ascii_lower_idem, IH; reflexivity.
Qed.

(** X2. [Config::from_env] always yields a check interval that fits a
    [u64] and a port that fits a [u16]; [main]'s inline reading of the
    same variables gives the same interval, id, host and port; with no
    variable set the configuration is interval 60, id "speedtest", host
    "localhost", port 1883, no credentials and level [Info]; and the log
    level name is read ignoring ASCII case. *)
Theorem config_from_env_bounded_defaults :
  forall env : Env,
    let c := config_from_env env in
    (0 <= check_interval c <= u64_max)%Z
    /\ (0 <= mqtt_port c <= u16_max)%Z
    /\ main_settings env = (check_interval c, mqtt_id c, mqtt_host c, mqtt_port c)
    /\ ((forall k, env k = None) ->
        c = mkConfig 60 "speedtest" "localhost" 1883 None None Log.Info)
    /\ (forall s, Log.level_filter_from_str (Log.lower s) = Log.level_filter_from_str s).
Proof.
  intros env c.
  split; [apply parse_or_range; unfold u64_max; lia|].
  split; [apply parse_or_range; unfold u16_max; lia|].
  split; [reflexivity|].
  split.
  - intros Hnone; subst c; unfold config_from_env; rewrite !Hnone; reflexivity.
  - intros s; unfold Log.level_filter_from_str, Log.eq_ignore_ascii_case.
    rewrite lower_idem; reflexivity.
Qed.

(** X3. [initialize_mqtt] never fails: it hands [Client::new] request
    capacity 10 and options with the configured id, host and port,
    keep-alive 5 s and a clean session, and sets credentials exactly when
    both a username and a password are configured.  The options [main]
    builds have the same keep-alive and clean session but never carry
    credentials. *)
Theorem initialize_mqtt_options :
  (forall config : Config,
    exists o,
      initialize_mqtt config = Ok (o, 10)
      /\ client_id o = mqtt_id config
      /\ broker_addr o = mqtt_host config
      /\ broker_port o = mqtt_port config
      /\ keep_alive o = 5%Z
      /\ clean_session o = true
      /\ (forall u p, credentials o = Some (u, p)
                      <-> mqtt_username config = Some u /\ mqtt_password config = Some p)
      /\ (credentials o = None
          <-> mqtt_username config = None \/ mqtt_password config = None))
  /\ (forall env : Env,
       keep_alive (main_mqtt_options env) = 5%Z
       /\ clean_session (main_mqtt_options env) = true
       /\ credentials (main_mqtt_options env) = None).
Proof.
  split.
  - intros [ci id host port user pass lvl]; unfold initialize_mqtt; simpl.
    eexists; split; [reflexivity|].
    destruct user as [u0|], pass as [p0|]; simpl; repeat split; intros;
      intuition congruence.
  - intros env; unfold main_mqtt_options.
    destruct (main_settings env) as [[[i id] host] port]; repeat split.
Qed.

(** ** Errors of a measurement cycle *)

(** X4. [perform_all_tests] reports the first failure in the order
    download, upload, ping, whatever the later outcomes are; a task that
    could not be joined is reported as [TaskJoinError], whatever its
    cause. *)
Theorem perform_all_tests_first_error :
  forall (dl ul pg : JoinResult float),
    (forall e, flatten_join dl = Err e -> perform_all_tests dl ul pg = Err e)
    /\ (forall d e, flatten_join dl = Ok d -> flatten_join ul = Err e ->
          perform_all_tests dl ul pg = Err e)
    /\ (forall d u e, flatten_join dl = Ok d -> flatten_join ul = Ok u ->
          flatten_join pg = Err e -> perform_all_tests dl ul pg = Err e)
    /\ (forall {A : Type} (je : JoinError), flatten_join (A := A) (Err je) = Err TaskJoinError).
Proof.
  intros dl ul pg; unfold perform_all_tests.
  split; [|split; [|split]].
  - intros e H; rewrite H; reflexivity.
  - intros d e Hd Hu; rewrite Hd; simpl; rewrite Hu; reflexivity.
  - intros d u e Hd Hu Hp; rewrite Hd; simpl; rewrite Hu; simpl; rewrite Hp; reflexivity.
  - intros A je; reflexivity.
Qed.

Lemma await_blocking_err {A : Type} (j : option JoinError) (r : result A ServiceError) e :
  await_blocking j r = Err e ->
  (e = TaskJoinError /\ j <> None) \/ (j = None /\ r = Err e).
Proof.
  destruct j; cbv [await_blocking service_error_of_join]; intro H;
    [injection H as <-; left; split; congruence|right; auto].
Qed.

Lemma lift_err {A : Type} (r : result A SpeedTestError) e :
  lift r = Err e -> exists ste, e = SpeedTest ste /\ r = Err ste.
Proof. destruct r; simpl; intro H; [discriminate|injection H as <-; eauto]. Qed.

Lemma probe_body_error {A B : Type} (r : result A SpeedTestError)
  (k : A -> result B ServiceError) e :
  (forall a e', k a = Err e' -> exists ste, e' = SpeedTest ste) ->
  bind (lift r) k = Err e -> exists ste, e = SpeedTest ste.
Proof.
  intros Hk; destruct r as [a|ste]; simpl; [apply Hk|intro H; injection H as <-; eauto].
Qed.

Ltac probe_chain :=
  repeat first [ apply probe_body_error; intros ? ?
               | let h := fresh "H" in intro h; injection h as <-; eauto
               | let h := fresh "H" in intro h; discriminate h ].

(** Each probe fails only by a join failure of its blocking task or by an
    engine error, passed on unchanged. *)
Lemma probe_errors (eng : Engine) (j : option JoinError) e :
  (perform_download_test eng j = Err e \/ perform_upload_test eng j = Err e
   \/ perform_ping_test eng j = Err e) ->
  (e = TaskJoinError /\ j <> None) \/ (j = None /\ exists ste, e = SpeedTest ste).
Proof.
  unfold perform_download_test, perform_upload_test, perform_ping_test.
  intros [H|[H|H]];
    (destruct (await_blocking j _) eqn:Hb; simpl in H; [discriminate|injection H as ->]);
    apply await_blocking_err in Hb as [Hb|[Hj Hb]]; auto; right; split; auto;
    revert Hb; probe_chain.
Qed.

(** X5. A measurement cycle of main.rs fails only with [TaskJoinError]
    (some probe task, or its blocking task, could not be joined) or with
    the engine's own [SpeedTest] error; when every task joins, only the
    latter.  None of [ConfigError], [ServerListError], [LatencyError],
    [DownloadTestError] and [UploadTestError] is ever produced. *)
Theorem run_cycle_error_kinds :
  forall (eng : Engine) (jd ju jp bd bu bp : option JoinError),
    match run_cycle eng jd ju jp bd bu bp with
    | Ok _ => True
    | Err e =>
        (e = TaskJoinError
         /\ (jd <> None \/ ju <> None \/ jp <> None \/ bd <> None \/ bu <> None
             \/ bp <> None))
        \/ exists ste, e = SpeedTest ste
    end.
Proof.
  intros eng jd ju jp bd bu bp; unfold run_cycle.
  destruct (perform_all_tests _ _ _) as [r|e] eqn:H; [exact I|].
  unfold perform_all_tests in H.
  destruct (flatten_join (spawned jd (perform_download_test eng bd))) as [d|e1] eqn:Hd;
    simpl in H.
  2:{ injection H as Heq; subst e.
      destruct jd as [je|]; simpl in Hd;
        [injection Hd as <-; left; split; [reflexivity|left; discriminate]|].
      destruct (perform_download_test eng bd) eqn:Hp; simpl in Hd;
        [discriminate|injection Hd as ->].
      destruct (probe_errors eng bd e1 (or_introl Hp)) as [[-> Hj]|[_ Hs]]; [|right; exact Hs].
      left; split; [reflexivity|do 3 right; left; exact Hj]. }
  destruct (flatten_join (spawned ju (perform_upload_test eng bu))) as [u|e2] eqn:Hu;
    simpl in H.
  2:{ injection H as Heq; subst e.
      destruct ju as [je|]; simpl in Hu;
        [injection Hu as <-; left; split; [reflexivity|right; left; discriminate]|].
      destruct (perform_upload_test eng bu) eqn:Hp; simpl in Hu; [discriminate|injection Hu as ->].
      destruct (probe_errors eng bu e2 (or_intror (or_introl Hp))) as [[-> Hj]|[_ Hs]];
        [|right; exact Hs].
      left; split; [reflexivity|do 4 right; left; exact Hj]. }
  destruct (flatten_join (spawned jp (perform_ping_test eng bp))) as [p|e3] eqn:Hpg;
    simpl in H; [discriminate|].
  injection H as Heq; subst e.
  destruct jp as [je|]; simpl in Hpg;
    [injection Hpg as <-; left; split; [reflexivity|do 2 right; left; discriminate]|].
  destruct (perform_ping_test eng bp) eqn:Hp; simpl in Hpg; [discriminate|injection Hpg as ->].
  destruct (probe_errors eng bp e3 (or_intror (or_intror Hp))) as [[-> Hj]|[_ Hs]];
    [|right; exact Hs].
  left; split; [reflexivity|do 5 right; exact Hj].
Qed.

(** ** Accounting of the running tasks *)

Lemma count_log_snoc (m : string) (ls : list LogLine) (l : LogLine) :
  count_log m (ls ++ [l]) = count_log m ls + (if String.eqb (message l) m then 1 else 0).
Proof.
  unfold count_log; rewrite filter_app, length_app; simpl.
  destruct (String.eqb (message l) m); reflexivity.
Qed.

Lemma run_preserves (P : Sys -> Prop) :
  (forall s s' l, P s -> step s l = Some s' -> P s') ->
  forall ls s s', P s -> run s ls = Some s' -> P s'.
Proof.
  intros Hstep ls; induction ls as [|l ls IH]; simpl; intros s s' Hs H.
  - injection H as <-; exact Hs.
  - destruct (step s l) as [s1|] eqn:Hst; [|discriminate].
    exact (IH s1 s' (Hstep s s1 l Hs Hst) H).
Qed.

Ltac step_cases l H :=
  destruct l; simpl in H;
  repeat match type of H with
         | context [match ?x with _ => _ end] =>
             destruct x; simpl in H; try discriminate H
         end;
  injection H as <-; cbn [sched chan rx_open pump_running sent received discarded
                          published cycles logs pending set_sched add_log];
  rewrite ?count_log_snoc; cbn [message].

Lemma step_cycle_accounting (s s' : Sys) (l : Label) :
  cycles s = List.length (sent s) + pending s + count_log "Speedtest failed" (logs s)
             + count_log "Failed to send test results to MQTT" (logs s) ->
  step s l = Some s' ->
  cycles s' = List.length (sent s') + pending s' + count_log "Speedtest failed" (logs s')
              + count_log "Failed to send test results to MQTT" (logs s').
Proof.
  destruct s as [sc ch ro pr se re di pu cy lg]; unfold pending; cbn [sched sent logs cycles].
  intros Hinv H; step_cases l H; rewrite ?length_app; simpl; lia.
Qed.

Lemma step_publisher_accounting (s s' : Sys) (l : Label) :
  subseq (published s) (List.map summary_publish (received s))
  /\ List.length (published s) = count_log "Published Speedtest result to MQTT" (logs s)
  /\ List.length (received s) = count_log "Published Speedtest result to MQTT" (logs s)
                                + count_log "MQTT publish error" (logs s) ->
  step s l = Some s' ->
  subseq (published s') (List.map summary_publish (received s'))
  /\ List.length (published s') = count_log "Published Speedtest result to MQTT" (logs s')
  /\ List.length (received s') = count_log "Published Speedtest result to MQTT" (logs s')
                                 + count_log "MQTT publish error" (logs s').
Proof.
  destruct s as [sc ch ro pr se re di pu cy lg]; cbn [published received logs].
  intros [Hsub [Hp Hr]] H; step_cases l H; rewrite ?map_app, ?length_app; simpl;
    (split; [|split];
     [ first [ exact Hsub | apply subseq_keep; exact Hsub | apply subseq_drop; exact Hsub ]
     | lia | lia ]).
Qed.

Lemma step_pump_accounting (s s' : Sys) (l : Label) :
  count_log "MQTT connection error" (logs s) = (if pump_running s then 0 else 1) ->
  step s l = Some s' ->
  count_log "MQTT connection error" (logs s') = (if pump_running s' then 0 else 1).
Proof.
  destruct s as [sc ch ro pr se re di pu cy lg]; cbn [pump_running logs].
  intros Hinv H; step_cases l H; simpl; lia.
Qed.

(** X6. In every reachable state, each measurement cycle started so far
    is accounted for exactly once: its snapshot was accepted by the
    channel, or is still held by the scheduler awaiting capacity, or the
    cycle failed ("Speedtest failed"), or its push found the receiver
    gone ("Failed to send test results to MQTT"). *)
Theorem cycles_accounted :
  forall ls s, run init ls = Some s ->
    cycles s = List.length (sent s) + pending s + count_log "Speedtest failed" (logs s)
               + count_log "Failed to send test results to MQTT" (logs s).
Proof.
  intros ls s; apply (run_preserves _ step_cycle_accounting ls init s); reflexivity.
Qed.

Lemma cycles_accounted_witness :
  exists s,
    run init [sample_cycle; LSend; LSleep; LCycle probe_failed (probe_ok 10) (probe_ok 12);
              LRxClose; LSleep; sample_cycle; LSend] = Some s
    /\ cycles s = List.length (sent s) + pending s + count_log "Speedtest failed" (logs s)
                  + count_log "Failed to send test results to MQTT" (logs s).
Proof.
  exists (match run init
                  [sample_cycle; LSend; LSleep; LCycle probe_failed (probe_ok 10) (probe_ok 12);
                   LRxClose; LSleep; sample_cycle; LSend]
          with Some s => s | None => init end).
  split; [vm_compute; reflexivity|].
  apply (cycles_accounted
           [sample_cycle; LSend; LSleep; LCycle probe_failed (probe_ok 10) (probe_ok 12);
            LRxClose; LSleep; sample_cycle; LSend]).
  vm_compute; reflexivity.
Defined.

(** X7. In every reachable state, the publisher has published, in order,
    the summaries of some of the snapshots it received, one per
    "Published Speedtest result to MQTT" line; every snapshot it received
    was either published or logged as "MQTT publish error". *)
Theorem publisher_accounted :
  forall ls s, run init ls = Some s ->
    subseq (published s) (List.map summary_publish (received s))
    /\ List.length (published s) = count_log "Published Speedtest result to MQTT" (logs s)
    /\ List.length (received s) = count_log "Published Speedtest result to MQTT" (logs s)
                                  + count_log "MQTT publish error" (logs s).
Proof.
  intros ls s; apply (run_preserves _ step_publisher_accounting ls init s).
  split; [exact subseq_nil|split; reflexivity].
Qed.

Lemma publisher_accounted_witness :
  exists s,
    run init [sample_cycle; LSend; LRecv (Err sample_client_error); LSleep;
              sample_cycle; LSend; LRecv (Ok tt)] = Some s
    /\ subseq (published s) (List.map summary_publish (received s))
    /\ List.length (published s) = count_log "Published Speedtest result to MQTT" (logs s)
    /\ List.length (received s) = count_log "Published Speedtest result to MQTT" (logs s)
                                  + count_log "MQTT publish error" (logs s).
Proof.
  exists (match run init
                  [sample_cycle; LSend; LRecv (Err sample_client_error); LSleep;
                   sample_cycle; LSend; LRecv (Ok tt)]
          with Some s => s | None => init end).
  split; [vm_compute; reflexivity|].
  apply (publisher_accounted
           [sample_cycle; LSend; LRecv (Err sample_client_error); LSleep;
            sample_cycle; LSend; LRecv (Ok tt)]).
  vm_compute; reflexivity.
Defined.

(** X8. In every reachable state, the connection pump has logged
    "MQTT connection error" at most once: exactly once if it has left its
    loop, never while it still polls. *)
Theorem pump_error_logged_once :
  forall ls s, run init ls = Some s ->
    count_log "MQTT connection error" (logs s) = (if pump_running s then 0 else 1).
Proof.
  intros ls s; apply (run_preserves _ step_pump_accounting ls init s); reflexivity.
Qed.

Lemma pump_error_logged_once_witness :
  exists s,
    run init [LPoll (Ok tt); LPoll (Err sample_connection_error); sample_cycle] = Some s
    /\ count_log "MQTT connection error" (logs s) = (if pump_running s then 0 else 1).
Proof.
  exists (match run init
                  [LPoll (Ok tt); LPoll (Err sample_connection_error); sample_cycle]
          with Some s => s | None => init end).
  split; [vm_compute; reflexivity|].
  apply (pump_error_logged_once
           [LPoll (Ok tt); LPoll (Err sample_connection_error); sample_cycle]).
  vm_compute; reflexivity.
Defined.

(** ** Totals of discovery publishing *)

Ltac ok_line_present :=
  simpl; repeat (first [left; reflexivity | right]).

Ltac ok_line_absent H n :=
  let Hn := fresh "Hn" in
  pose proof (H n ltac:(simpl; auto)) as Hn; simpl in Hn;
  solve [repeat (destruct Hn as [Hn|Hn]; [discriminate Hn|]); exact Hn].

(** X9. Whatever the broker client answers, [publish_discovery_message]
    makes at most nine publishes and sleeps at most six seconds in all;
    when it returns [Ok] it made one publish per descriptor plus one per
    second slept (each retry is preceded by its sleep); and it returns
    [Ok] exactly when it logged the success line of every descriptor. *)
Theorem publish_discovery_totals :
  forall outs : PublishOutcomes,
    let evs := fst (publish_discovery_message outs) in
    List.length (publish_topics evs) <= 9
    /\ sleep_seconds evs <= 6
    /\ (snd (publish_discovery_message outs) = Ok tt ->
        List.length (publish_topics evs) = 3 + sleep_seconds evs)
    /\ (snd (publish_discovery_message outs) = Ok tt
        <-> forall name, In name discovery_names -> In (discovery_ok_line name) evs).
Proof.
  intros outs evs; subst evs.
  unfold publish_discovery_message; cbn [discovery_loop discovery_messages].
  repeat one_descriptor.
  all: split; [vm_compute; lia|split; [vm_compute; lia|split; [|split]]];
    cbn [snd fst];
    [ first [intros _; vm_compute; reflexivity | intros H; discriminate H]
    | first [ intros H; discriminate H
            | intros _ name Hin; simpl in Hin;
              destruct Hin as [<-|[<-|[<-|[]]]]; ok_line_present ]
    | first [ intros _; reflexivity
            | intros H; exfalso;
              first [ ok_line_absent H "download"
                    | ok_line_absent H "upload"
                    | ok_line_absent H "ping" ] ] ].
Qed.

(** ** Announced and used topics *)

(** X10. The state topic each discovery descriptor announces,
    homeassistant/sensor/speedtest/<name>, is never used: it differs from
    the descriptor's own config topic, from every topic of the messages
    models.rs builds (homeassistant/sensor/Speedtest/<Kind>), and from
    speedtest/results, and the running program never publishes to it. *)
Theorem announced_state_topics_unused :
  forall name unit device_class,
    In (name, unit, device_class) discovery_messages ->
    exists t,
      announced_state_topic (config_message name unit device_class) = Some t
      /\ t <> config_topic name
      /\ t <> "speedtest/results"
      /\ (forall res, Forall (fun m => state_topic m <> t) (messages_of_result res))
      /\ (forall ls s, run init ls = Some s ->
            Forall (fun p => pub_topic p <> t) (published s)).
Proof.
  intros name unit dc Hin; simpl in Hin.
  destruct Hin as [H|[H|[H|[]]]]; injection H as <- <- <-;
    (eexists; split; [reflexivity|];
     split; [discriminate|split; [discriminate|split;
     [ intros res; repeat constructor; discriminate
     | intros ls s Hrun;
       apply (run_publishes_state_only ls init s (Forall_nil _)) in Hrun;
       eapply Forall_impl; [|exact Hrun];
       intros p [r ->]; discriminate ]]]).
Qed.

Lemma announced_state_topics_unused_witness :
  In ("download", "Mbit/s", "data_rate") discovery_messages
  /\ exists t,
       announced_state_topic (config_message "download" "Mbit/s" "data_rate") = Some t
       /\ t <> config_topic "download"
       /\ t <> "speedtest/results"
       /\ (forall res, Forall (fun m => state_topic m <> t) (messages_of_result res))
       /\ (forall ls s, run init ls = Some s ->
             Forall (fun p => pub_topic p <> t) (published s)).
Proof.
  split; [left; reflexivity|].
  apply (announced_state_topics_unused "download" "Mbit/s" "data_rate").
  left; reflexivity.
Defined.

(** ** Probe failures *)

(** X11. A probe is cut short by its first failure.  A join failure of
    its blocking task makes every probe fail with [TaskJoinError],
    whatever the engine does; otherwise the first engine call that fails
    (configuration, server list, best server) ends the probe with that
    very error, as [SpeedTest].  The ping probe never makes a transfer
    call: its result depends only on the first three calls. *)
Theorem probes_stop_at_first_failure :
  (forall eng je,
     perform_download_test eng (Some je) = Err TaskJoinError
     /\ perform_upload_test eng (Some je) = Err TaskJoinError
     /\ perform_ping_test eng (Some je) = Err TaskJoinError)
  /\ (forall eng ste, get_configuration eng = Err ste ->
        perform_download_test eng None = Err (SpeedTest ste)
        /\ perform_upload_test eng None = Err (SpeedTest ste)
        /\ perform_ping_test eng None = Err (SpeedTest ste))
  /\ (forall eng config ste, get_configuration eng = Ok config ->
        get_server_list_with_config eng config = Err ste ->
        perform_download_test eng None = Err (SpeedTest ste)
        /\ perform_upload_test eng None = Err (SpeedTest ste)
        /\ perform_ping_test eng None = Err (SpeedTest ste))
  /\ (forall eng config srvs ste, get_configuration eng = Ok config ->
        get_server_list_with_config eng config = Ok srvs ->
        get_best_server_based_on_latency eng (servers srvs) = Err ste ->
        perform_download_test eng None = Err (SpeedTest ste)
        /\ perform_upload_test eng None = Err (SpeedTest ste)
        /\ perform_ping_test eng None = Err (SpeedTest ste))
  /\ (forall eng eng' j,
        get_configuration eng = get_configuration eng' ->
        get_server_list_with_config eng = get_server_list_with_config eng' ->
        get_best_server_based_on_latency eng = get_best_server_based_on_latency eng' ->
        perform_ping_test eng j = perform_ping_test eng' j).
Proof.
  unfold perform_download_test, perform_upload_test, perform_ping_test, await_blocking, lift.
  split; [|split; [|split; [|split]]].
  - intros eng je; repeat split.
  - intros eng ste Hc; rewrite Hc; repeat split.
  - intros eng config ste Hc Hs; rewrite Hc; simpl; rewrite Hs; repeat split.
  - intros eng config srvs ste Hc Hs Hb; rewrite Hc; simpl; rewrite Hs; simpl; rewrite Hb;
      repeat split.
  - intros eng eng' j Hc Hs Hb; rewrite Hc, Hs, Hb; reflexivity.
Qed.

(** ** The log level *)

Lemma level_filter_from_str_spec (s : string) (l : Log.LevelFilter) :
  Log.level_filter_from_str s = Some l <-> Log.lower s = Log.lower (Log.level_name l).
Proof.
  unfold Log.level_filter_from_str, Log.eq_ignore_ascii_case; split.
  - repeat match goal with
           | |- context [if String.eqb ?a ?b then _ else _] =>
               let E := fresh "E" in destruct (String.eqb_spec a b) as [E|E]
           end;
      intro H; try discriminate H; injection H as <-; cbn [Log.level_name]; congruence.
  - intro H; destruct l; rewrite H; reflexivity.
Qed.

(** X12. The log level of [Config::from_env]: [LOG_LEVEL] unset gives
    [Info]; a value equal, ignoring ASCII case, to a level's name gives
    that level; any other value gives [Info]. *)
Theorem config_log_level :
  forall env : Env,
    (env "LOG_LEVEL" = None -> log_level (config_from_env env) = Log.Info)
    /\ (forall s l, env "LOG_LEVEL" = Some s ->
          Log.lower s = Log.lower (Log.level_name l) ->
          log_level (config_from_env env) = l)
    /\ (forall s, env "LOG_LEVEL" = Some s ->
          (forall l, Log.lower s <> Log.lower (Log.level_name l)) ->
          log_level (config_from_env env) = Log.Info).
Proof.
  intros env; unfold config_from_env; cbn [log_level].
  split; [|split].
  - intros H; rewrite H; reflexivity.
  - intros s l H Hl; rewrite H; cbn [unwrap_or].
    apply level_filter_from_str_spec in Hl; rewrite Hl; reflexivity.
  - intros s H Hn; rewrite H; cbn [unwrap_or].
    destruct (Log.level_filter_from_str s) as [l|] eqn:E; [|reflexivity].
    apply level_filter_from_str_spec in E; exfalso; exact (Hn l E).
Qed.
